(** * scripts/add_factory_to_extra_images.py

    A shallow embedding of the PlatformIO pre-upload hook that registers the
    factory binary in FLASH_EXTRA_IMAGES, and the properties of its partition
    table reader, its factory image lookup and its upload block.

    Python [str] values are modelled by [string]; one [ascii] stands for one
    code point below 256 of the decoded text.  The host (PlatformIO's [env],
    [sys.argv], the file system) is a record the functions read; what the
    script changes (both output streams and FLASH_EXTRA_IMAGES) is a [world]
    threaded through a state-and-exception monad. *)

From Stdlib Require Import String Ascii List ZArith NArith Bool Lia DecimalString.
Import ListNotations.
Open Scope string_scope.

(** ** Python values used by the script *)

Module Py.

Definition LF : ascii := "010"%char.
Definition CR : ascii := "013"%char.

(** [str.isspace] on the code points below 256: TAB..CR, FS..US, SPACE,
    NEL (0x85) and NBSP (0xA0). *)
Definition isspace (c : ascii) : bool :=
  let n := N_of_ascii c in
  ((9 <=? n) && (n <=? 13) || (28 <=? n) && (n <=? 32)
   || (n =? 133) || (n =? 160))%N.

Fixpoint lstrip (s : string) : string :=
  match s with
  | EmptyString => EmptyString
  | String c r => if isspace c then lstrip r else s
  end.

Fixpoint rstrip (s : string) : string :=
  match s with
  | EmptyString => EmptyString
  | String c r =>
      match rstrip r with
      | EmptyString => if isspace c then EmptyString else String c EmptyString
      | r' => String c r'
      end
  end.

(** [s.strip()] *)
Definition strip (s : string) : string := rstrip (lstrip s).

(** [s.startswith(p)] *)
Definition startswith (s p : string) : bool := String.prefix p s.

(** [s.endswith(p)] for a one-character [p]. *)
Fixpoint endswith_char (s : string) (c : ascii) : bool :=
  match s with
  | EmptyString => false
  | String d EmptyString => Ascii.eqb d c
  | String _ r => endswith_char r c
  end.

(** Truth value of a [str]: only the empty string is falsy. *)
Definition truthy (s : string) : bool :=
  match s with EmptyString => false | String _ _ => true end.

(** [s.split(sep)] for a one-character separator: every occurrence cuts,
    so the result is never empty and may hold empty fields. *)
Fixpoint split_from (sep : ascii) (cur s : string) : list string :=
  match s with
  | EmptyString => [cur]
  | String c r =>
      if Ascii.eqb c sep then cur :: split_from sep EmptyString r
      else split_from sep (cur ++ String c EmptyString) r
  end.

Definition split (s : string) (sep : ascii) : list string :=
  split_from sep EmptyString s.

(** [for line in f] on a file opened in text mode with universal newlines:
    LF, CR and CR LF all end a line and are read as LF; the terminator stays
    on the line, and a last line without terminator is still yielded. *)
Fixpoint readlines_from (cur s : string) : list string :=
  match s with
  | EmptyString => if truthy cur then [cur] else []
  | String c r =>
      if Ascii.eqb c LF then
        (cur ++ String LF EmptyString) :: readlines_from EmptyString r
      else if Ascii.eqb c CR then
        match r with
        | String c' r' =>
            if Ascii.eqb c' LF then
              (cur ++ String LF EmptyString) :: readlines_from EmptyString r'
            else
              (cur ++ String LF EmptyString) :: readlines_from EmptyString r
        | EmptyString => [cur ++ String LF EmptyString]
        end
      else readlines_from (cur ++ String c EmptyString) r
  end.

Definition readlines (content : string) : list string :=
  readlines_from EmptyString content.

(** [posixpath.join(a, b)] *)
Definition path_join (a b : string) : string :=
  if startswith b "/" then b
  else if negb (truthy a) || endswith_char a "/"%char then a ++ b
  else a ++ "/" ++ b.

(** The two kinds of value [factory_offset] holds: the [int] it is
    initialised with and the [str] taken from a partition. *)
Inductive value : Type :=
| Int (z : Z)
| Str (s : string).

(** [a != b]: an [int] and a [str] are never equal. *)
Definition ne (a b : value) : bool :=
  match a, b with
  | Int x, Int y => negb (x =? y)%Z
  | Str s, Str t => negb (s =? t)
  | _, _ => true
  end.

(** The text of [v] inside an f-string. *)
Definition format (v : value) : string :=
  match v with
  | Int z => NilZero.string_of_int (Z.to_int z)
  | Str s => s
  end.

End Py.

(** ** The host and the state the script changes *)

(** A regular file as [open(p, "r", encoding="utf-8")] and the iteration over
    its lines see it: text that is read to its end, or a file on which opening
    or reading raises (no permission, bytes that are not UTF-8), with the
    error raised. *)
Inductive file : Type :=
| Readable (content : string)
| Unreadable (error : string).

(** What the script reads: the values PlatformIO substitutes, [sys.argv], and
    the regular files of the file system. *)
Record host : Type := {
  PROJECT_DIR : string;        (* env.subst("$PROJECT_DIR") *)
  FACTORY_BINARY : string;     (* env.GetProjectOption("custom_factory_binary", "") *)
  ENV_NAME : string;           (* env["PIOENV"] *)
  build_partitions : string;   (* env.BoardConfig().get("build.partitions") *)
  argv : list string;          (* sys.argv *)
  files : string -> option file
}.

(** What the script writes: the printed lines and the list held by [env]. *)
Record world : Type := {
  stdout : list string;
  stderr : list string;
  FLASH_EXTRA_IMAGES : list (string * string)
}.

Inductive outcome (A : Type) : Type :=
| Returned (a : A)
| Raised (msg : string).
Arguments Returned {A} a.
Arguments Raised {A} msg.

Definition M (A : Type) : Type := world -> world * outcome A.

Definition ret {A} (a : A) : M A := fun w => (w, Returned a).

Definition raise {A} (msg : string) : M A := fun w => (w, Raised msg).

Definition bind {A B} (m : M A) (k : A -> M B) : M B :=
  fun w =>
    match m w with
    | (w', Returned a) => k a w'
    | (w', Raised msg) => (w', Raised msg)
    end.

Notation "x <- m ;; k" := (bind m (fun x => k))
  (at level 61, m at next level, right associativity).
Notation "m ;;; k" := (bind m (fun _ => k))
  (at level 61, right associativity).

(** [print(msg)] *)
Definition print (msg : string) : M unit :=
  fun w => ({| stdout := stdout w ++ [msg];
               stderr := stderr w;
               FLASH_EXTRA_IMAGES := FLASH_EXTRA_IMAGES w |}, Returned tt).

(** [print(msg, file=sys.stderr)] *)
Definition print_err (msg : string) : M unit :=
  fun w => ({| stdout := stdout w;
               stderr := stderr w ++ [msg];
               FLASH_EXTRA_IMAGES := FLASH_EXTRA_IMAGES w |}, Returned tt).

(** [env.Append(FLASH_EXTRA_IMAGES=images)] *)
Definition Append (images : list (string * string)) : M unit :=
  fun w => ({| stdout := stdout w;
               stderr := stderr w;
               FLASH_EXTRA_IMAGES := FLASH_EXTRA_IMAGES w ++ images |},
            Returned tt).

(** [os.path.isfile(p)] *)
Definition isfile (h : host) (p : string) : bool :=
  match files h p with Some _ => true | None => false end.

(** [open(p, "r", encoding="utf-8")] read to its end: a missing file raises,
    and so does a regular file that cannot be read or decoded. *)
Definition open (h : host) (p : string) : M string :=
  match files h p with
  | Some (Readable content) => ret content
  | Some (Unreadable error) => raise error
  | None => raise "FileNotFoundError"
  end.

(** ** The script *)

Definition FACTORY_PARTITION_NAME : string := "factory".

(** The dict built for one line of the table; its six keys are fixed. *)
Record partition : Type := {
  name : string;
  type : string;
  subtype : string;
  offset : string;
  size : string;
  flags : string
}.

(** The three ways through the body of the loop over the lines. *)
Inductive line_step : Type :=
| Continue_comment_or_empty      (* first [continue] *)
| Continue_not_valid             (* second [continue] *)
| Append_partition (p : partition).

(** [parts = [x.strip() for x in line.split(",")]] *)
Definition parts_of (line : string) : list string :=
  map Py.strip (Py.split line ","%char).

(** The body of the loop; [parts[i]] is only evaluated below [len(parts)]. *)
Definition read_line (line : string) : line_step :=
  let line := Py.strip line in
  if negb (Py.truthy line) || Py.startswith line "#" then
    Continue_comment_or_empty
  else
    let parts := parts_of line in
    if (length parts <? 5)%nat then Continue_not_valid
    else
      Append_partition
        {| name := nth 0 parts "";
           type := nth 1 parts "";
           subtype := nth 2 parts "";
           offset := nth 3 parts "";
           size := nth 4 parts "";
           flags := if (5 <? length parts)%nat then nth 5 parts "" else "" |}.

Definition loop_body (partition_table : list partition) (line : string)
  : list partition :=
  match read_line line with
  | Append_partition p => partition_table ++ [p]
  | _ => partition_table
  end.

Definition partition_table_file_name (h : host) : string :=
  PROJECT_DIR h ++ "/" ++ build_partitions h.

Definition no_table_message : string :=
  "No partition table found or PARTITIONS_TABLE_CSV not set.".

Definition get_partition_table (h : host) : M (list partition) :=
  let file_name := partition_table_file_name h in
  if Py.truthy file_name && isfile h file_name then
    f <- open h file_name ;;
    ret (fold_left loop_body (Py.readlines f) [])
  else
    print_err no_table_message ;;;
    ret [].

Definition get_factory_image (h : host) : M (option string) :=
  if negb (FACTORY_BINARY h =? "") then
    let factory_image := Py.path_join (PROJECT_DIR h) (FACTORY_BINARY h) in
    if isfile h factory_image then ret (Some factory_image)
    else
      print ("Factory binary: " ++ factory_image ++ " does not exist!") ;;;
      ret None
  else
    print ("No factory binary specified for environment: " ++ ENV_NAME h ++ "!") ;;;
    ret None.

(** The search loop: every matching partition overwrites [factory_offset]. *)
Definition find_offset (partition_table : list partition) (factory_offset : Py.value)
  : Py.value :=
  fold_left
    (fun factory_offset partition =>
       if name partition =? FACTORY_PARTITION_NAME
       then Py.Str (offset partition)
       else factory_offset)
    partition_table factory_offset.

Definition no_offset_message : string :=
  "No offset found for partition: " ++ FACTORY_PARTITION_NAME ++ "!".

Definition no_image_message : string := "No factory image found!".

(** The body of the upload block once both lookups have returned. *)
Definition gates (factory_image : option string)
  (partition_table : list partition) : M unit :=
  let factory_offset := Py.Int 0 in
  match factory_image with
  | Some image =>
      let factory_offset := find_offset partition_table factory_offset in
      if Py.ne factory_offset (Py.Int 0) then
        Append [(Py.format factory_offset, Py.format (Py.Str image))]
      else raise no_offset_message
  | None => raise no_image_message
  end.

(** [if "upload" in sys.argv: ...] *)
Definition main (h : host) : M unit :=
  if existsb (String.eqb "upload") (argv h) then
    factory_image <- get_factory_image h ;;
    partition_table <- get_partition_table h ;;
    gates factory_image partition_table
  else ret tt.

(** What one line adds to the table. *)
Definition emitted (line : string) : list partition :=
  match read_line line with
  | Append_partition p => [p]
  | _ => []
  end.

(** ** The reader as the documentation words it

    A second description of the table, following the invariant of the data
    model: keep the lines that are neither blank nor comments, cut them into
    trimmed fields, keep those with at least five fields. *)

Module Doc.

Definition is_blank (line : string) : bool := Py.strip line =? "".

Definition is_comment (line : string) : bool :=
  String.prefix "#" (Py.strip line).

Definition is_data_line (line : string) : bool :=
  negb (is_blank line) && negb (is_comment line).

Definition fields (line : string) : list string :=
  map Py.strip (Py.split (Py.strip line) ","%char).

Definition enough_fields (f : list string) : bool := (5 <=? length f)%nat.

(** The five mandatory columns of a record. *)
Definition core (p : partition)
  : string * string * string * string * string :=
  (name p, type p, subtype p, offset p, size p).

Definition core_of_fields (f : list string)
  : string * string * string * string * string :=
  (nth 0 f "", nth 1 f "", nth 2 f "", nth 3 f "", nth 4 f "").

Definition expected_cores (lines : list string)
  : list (string * string * string * string * string) :=
  map core_of_fields
    (filter enough_fields (map fields (filter is_data_line lines))).

Definition is_factory (p : partition) : bool :=
  name p =? FACTORY_PARTITION_NAME.

End Doc.

(** ** Concrete hosts *)

Module Scenario.

Definition nl : string := String Py.LF EmptyString.

Definition w0 : world :=
  {| stdout := []; stderr := []; FLASH_EXTRA_IMAGES := [] |}.

(** A project whose partition table has the text [table]; [binary] says
    whether build/factory.bin exists. *)
Definition project (table : option file) (binary : bool) : host :=
  {| PROJECT_DIR := "/prj";
     FACTORY_BINARY := "build/factory.bin";
     ENV_NAME := "esp32";
     build_partitions := "partitions.csv";
     argv := ["pio"; "run"; "-t"; "upload"];
     files := fun p =>
       if p =? "/prj/partitions.csv" then table
       else if p =? "/prj/build/factory.bin"
            then (if binary then Some (Readable "") else None)
            else None |}.

(** The table of the documentation's example. *)
Definition table : string :=
  "# comment" ++ nl ++
  "nvs,      data, nvs,     0x9000,  0x5000," ++ nl ++
  "factory,  app,  factory, 0x10000, 0x100000," ++ nl.

Definition h : host := project (Some (Readable table)) true.

(** A table whose only factory partition starts at offset 0. *)
Definition table_zero : string :=
  "nvs,      data, nvs,     0x9000,  0x5000," ++ nl ++
  "factory,  app,  factory, 0,       0x100000," ++ nl.

Definition h_zero : host := project (Some (Readable table_zero)) true.

(** A table with two partitions named factory. *)
Definition table_twice : string :=
  "factory,  app,  factory, 0x10000, 0x100000," ++ nl ++
  "factory,  app,  factory, 0x20000, 0x100000," ++ nl.

Definition h_twice : host := project (Some (Readable table_twice)) true.

Definition factory_at (off : string) : partition :=
  {| name := "factory"; type := "app"; subtype := "factory";
     offset := off; size := "0x100000"; flags := "" |}.

(** A table without factory partition. *)
Definition table_nvs : string :=
  "nvs,      data, nvs,     0x9000,  0x5000" ++ nl.

Definition h_nvs : host := project (Some (Readable table_nvs)) true.

(** No partition table file, and no factory binary. *)
Definition h_no_table : host := project None true.
Definition h_no_binary : host := project (Some (Readable table)) false.

(** A table file that is not valid UTF-8, in a project without the binary. *)
Definition h_undecodable : host :=
  project (Some (Unreadable "UnicodeDecodeError")) false.

(** A table with one partition that has flags and one that has none. *)
Definition table_flags : string :=
  "ota,      app,  ota_0,   0x10000, 1M, encrypted" ++ nl ++
  "nvs,      data, nvs,     0x9000,  0x5000" ++ nl.

Definition h_flags : host := project (Some (Readable table_flags)) true.

End Scenario.

(** ** Vocabulary for the properties of the text operations *)

Module Text.

(** Number of occurrences of [c] in [s]. *)
Fixpoint count_char (c : ascii) (s : string) : nat :=
  match s with
  | EmptyString => 0
  | String d r => (if Ascii.eqb d c then 1 else 0) + count_char c r
  end.

(** [s] is made of whitespace only. *)
Fixpoint all_space (s : string) : bool :=
  match s with
  | EmptyString => true
  | String c r => Py.isspace c && all_space r
  end.

(** [s] has no whitespace at either end. *)
Definition trimmed (s : string) : Prop := Py.strip s = s.

(** The text [s] with every LF written as CR LF. *)
Fixpoint crlf (s : string) : string :=
  match s with
  | EmptyString => EmptyString
  | String c r =>
      if Ascii.eqb c Py.LF then String Py.CR (String Py.LF (crlf r))
      else String c (crlf r)
  end.

(** The table the reader builds from the text of a file. *)
Definition table_of (content : string) : list partition :=
  fold_left loop_body (Py.readlines content) [].

End Text.

(** The path [get_factory_image] tests, and the line it prints when it
    returns None. *)
Definition image_path (h : host) : string :=
  Py.path_join (PROJECT_DIR h) (FACTORY_BINARY h).

Definition image_diagnostic (h : host) : string :=
  if FACTORY_BINARY h =? ""
  then "No factory binary specified for environment: " ++ ENV_NAME h ++ "!"
  else "Factory binary: " ++ image_path h ++ " does not exist!".

(** The image lookup succeeds. *)
Definition image_found (h : host) : bool :=
  negb (FACTORY_BINARY h =? "") && isfile h (image_path h).

(** A project whose factory binary is given by an absolute path. *)
Definition absolute_project : host :=
  {| PROJECT_DIR := "/prj";
     FACTORY_BINARY := "/opt/images/factory.bin";
     ENV_NAME := "esp32";
     build_partitions := "partitions.csv";
     argv := ["pio"; "run"; "-t"; "upload"];
     files := fun p =>
       if p =? "/opt/images/factory.bin" then Some (Readable "") else None |}.

(** The documentation's project built without the upload target. *)
Definition build_only : host :=
  {| PROJECT_DIR := "/prj";
     FACTORY_BINARY := "build/factory.bin";
     ENV_NAME := "esp32";
     build_partitions := "partitions.csv";
     argv := ["pio"; "run"];
     files := files Scenario.h |}.

(** * Properties *)

Example scenario_table :
  get_partition_table Scenario.h Scenario.w0
  = (Scenario.w0,
     Returned
       [ {| name := "nvs"; type := "data"; subtype := "nvs";
            offset := "0x9000"; size := "0x5000"; flags := "" |};
         {| name := "factory"; type := "app"; subtype := "factory";
            offset := "0x10000"; size := "0x100000"; flags := "" |} ]).
Proof. vm_compute. reflexivity. Qed.

Example scenario_main :
  main Scenario.h Scenario.w0
  = ({| stdout := []; stderr := [];
        FLASH_EXTRA_IMAGES := [("0x10000", "/prj/build/factory.bin")] |},
     Returned tt).
Proof. vm_compute. reflexivity. Qed.

Example zero_offset_main :
  main Scenario.h_zero Scenario.w0
  = ({| stdout := []; stderr := [];
        FLASH_EXTRA_IMAGES := [("0", "/prj/build/factory.bin")] |},
     Returned tt).
Proof. vm_compute. reflexivity. Qed.

Example twice_main :
  main Scenario.h_twice Scenario.w0
  = ({| stdout := []; stderr := [];
        FLASH_EXTRA_IMAGES := [("0x20000", "/prj/build/factory.bin")] |},
     Returned tt).
Proof. vm_compute. reflexivity. Qed.

Example readlines_newlines :
  Py.readlines ("a" ++ String Py.CR (String Py.LF "b") ++ String Py.CR "c")
  = ["a" ++ Scenario.nl; "b" ++ Scenario.nl; "c"].
Proof. reflexivity. Qed.

Example split_trailing_comma : Py.split "a,,b," ","%char = ["a"; ""; "b"; ""].
Proof. reflexivity. Qed.

Example strip_both_ends :
  Py.strip (String "009" "  a b " ++ Scenario.nl) = "a b".
Proof. reflexivity. Qed.

(** ** The monad and the two lookups *)

Lemma bind_returned {A B} (m : M A) (k : A -> M B) w w' a :
  m w = (w', Returned a) -> bind m k w = k a w'.
Proof. unfold bind. intros ->. reflexivity. Qed.

Lemma bind_raised {A B} (m : M A) (k : A -> M B) w w' msg :
  m w = (w', Raised msg) -> bind m k w = (w', Raised msg).
Proof. unfold bind. intros ->. reflexivity. Qed.

Lemma file_name_not_empty h : partition_table_file_name h <> "".
Proof.
  unfold partition_table_file_name.
  destruct (PROJECT_DIR h); discriminate.
Qed.

Lemma file_name_truthy h : Py.truthy (partition_table_file_name h) = true.
Proof.
  pose proof (file_name_not_empty h) as H.
  destruct (partition_table_file_name h); [contradiction | reflexivity].
Qed.

Lemma isfile_true h p : isfile h p = true <-> exists f, files h p = Some f.
Proof.
  unfold isfile. destruct (files h p) as [c|]; split.
  - intros _. now exists c.
  - reflexivity.
  - discriminate.
  - intros [c H]. discriminate.
Qed.

Lemma isfile_false h p : isfile h p = false <-> files h p = None.
Proof.
  unfold isfile. destruct (files h p); split; congruence.
Qed.

Lemma get_partition_table_found h w content :
  files h (partition_table_file_name h) = Some (Readable content) ->
  get_partition_table h w
  = (w, Returned (fold_left loop_body (Py.readlines content) [])).
Proof.
  intros Hf. unfold get_partition_table.
  rewrite file_name_truthy. unfold isfile, open, bind, ret.
  rewrite Hf. reflexivity.
Qed.

Lemma get_partition_table_missing h w :
  isfile h (partition_table_file_name h) = false ->
  get_partition_table h w = (fst (print_err no_table_message w), Returned []).
Proof.
  intros Hf. unfold get_partition_table.
  rewrite Hf, andb_false_r. reflexivity.
Qed.

Lemma get_partition_table_unreadable h w error :
  files h (partition_table_file_name h) = Some (Unreadable error) ->
  get_partition_table h w = (w, Raised error).
Proof.
  intros Hf. unfold get_partition_table.
  rewrite file_name_truthy. unfold isfile, open, bind, raise.
  rewrite Hf. reflexivity.
Qed.

(** The reader returns whenever the table is absent or can be read. *)
Lemma get_partition_table_returns h w :
  (forall error,
     files h (partition_table_file_name h) <> Some (Unreadable error)) ->
  exists w' tbl,
    get_partition_table h w = (w', Returned tbl)
    /\ FLASH_EXTRA_IMAGES w' = FLASH_EXTRA_IMAGES w.
Proof.
  intros Hr.
  destruct (files h (partition_table_file_name h)) as [[c|e]|] eqn:Hf.
  - eexists _, _. split; [apply (get_partition_table_found _ _ _ Hf) | reflexivity].
  - destruct (Hr e). reflexivity.
  - apply isfile_false in Hf.
    eexists _, _. split; [apply (get_partition_table_missing _ _ Hf) | reflexivity].
Qed.

(** Returning or raising, the reader leaves the list of images alone. *)
Lemma get_partition_table_keeps_images h w :
  FLASH_EXTRA_IMAGES (fst (get_partition_table h w)) = FLASH_EXTRA_IMAGES w.
Proof.
  destruct (files h (partition_table_file_name h)) as [[c|e]|] eqn:Hf.
  - now rewrite (get_partition_table_found _ _ _ Hf).
  - now rewrite (get_partition_table_unreadable _ _ _ Hf).
  - apply isfile_false in Hf. now rewrite (get_partition_table_missing _ _ Hf).
Qed.

(** The image lookup always returns, and leaves the list of images alone. *)
Lemma get_factory_image_returns h w :
  exists w' img,
    get_factory_image h w = (w', Returned img)
    /\ FLASH_EXTRA_IMAGES w' = FLASH_EXTRA_IMAGES w.
Proof.
  unfold get_factory_image.
  destruct (negb (FACTORY_BINARY h =? "")).
  - destruct (isfile h _).
    + eexists _, _. split; reflexivity.
    + eexists _, _. split; reflexivity.
  - eexists _, _. split; reflexivity.
Qed.

Lemma get_factory_image_keeps h w w' img :
  get_factory_image h w = (w', Returned img) ->
  FLASH_EXTRA_IMAGES w' = FLASH_EXTRA_IMAGES w.
Proof.
  intros H. destruct (get_factory_image_returns h w) as (w1 & i & E & K).
  congruence.
Qed.

Lemma get_partition_table_keeps h w w' tbl :
  get_partition_table h w = (w', Returned tbl) ->
  FLASH_EXTRA_IMAGES w' = FLASH_EXTRA_IMAGES w.
Proof.
  intros H. pose proof (get_partition_table_keeps_images h w) as K.
  now rewrite H in K.
Qed.

Lemma upload_in_argv h :
  existsb (String.eqb "upload") (argv h) = true <-> In "upload" (argv h).
Proof.
  rewrite existsb_exists. split.
  - intros (x & Hx & E). apply String.eqb_eq in E. now subst.
  - intros H. exists "upload". split; [assumption | apply String.eqb_refl].
Qed.

(** With [upload] on the command line the block is the two lookups followed
    by the gates. *)
Lemma main_upload h w w1 w2 img tbl :
  In "upload" (argv h) ->
  get_factory_image h w = (w1, Returned img) ->
  get_partition_table h w1 = (w2, Returned tbl) ->
  main h w = gates img tbl w2.
Proof.
  intros Hu Hi Ht. apply upload_in_argv in Hu.
  unfold main. rewrite Hu.
  rewrite (bind_returned _ _ _ _ _ Hi).
  rewrite (bind_returned _ _ _ _ _ Ht). reflexivity.
Qed.

Lemma main_reader_raises h w w1 w2 img msg :
  In "upload" (argv h) ->
  get_factory_image h w = (w1, Returned img) ->
  get_partition_table h w1 = (w2, Raised msg) ->
  main h w = (w2, Raised msg).
Proof.
  intros Hu Hi Ht. apply upload_in_argv in Hu.
  unfold main. rewrite Hu.
  rewrite (bind_returned _ _ _ _ _ Hi).
  apply (bind_raised _ _ _ _ _ Ht).
Qed.

(** ** The search loop *)

Lemma find_offset_app a b o :
  find_offset (a ++ b)%list o = find_offset b (find_offset a o).
Proof. unfold find_offset. apply fold_left_app. Qed.

Lemma find_offset_snoc a p o :
  find_offset (a ++ [p])%list o
  = if Doc.is_factory p then Py.Str (offset p) else find_offset a o.
Proof. rewrite find_offset_app. reflexivity. Qed.

Lemma find_offset_no_factory tbl o :
  filter Doc.is_factory tbl = [] -> find_offset tbl o = o.
Proof.
  revert o. induction tbl as [|p t IH]; intros o H; [reflexivity|].
  simpl in H. change (find_offset (p :: t) o)
    with (find_offset t (if name p =? FACTORY_PARTITION_NAME
                         then Py.Str (offset p) else o)).
  unfold Doc.is_factory in H at 1.
  destruct (name p =? FACTORY_PARTITION_NAME); [discriminate | now apply IH].
Qed.

Lemma find_offset_last_factory tbl o earlier r :
  filter Doc.is_factory tbl = (earlier ++ [r])%list ->
  find_offset tbl o = Py.Str (offset r).
Proof.
  revert earlier r. induction tbl as [|p t IH] using rev_ind; intros earlier r H.
  - destruct earlier; discriminate.
  - rewrite filter_app in H. simpl in H. rewrite find_offset_snoc.
    destruct (Doc.is_factory p).
    + apply app_inj_tail in H. destruct H as [_ ->]. reflexivity.
    + rewrite app_nil_r in H. now apply (IH earlier).
Qed.

Lemma filter_nil_or_last {A} (f : A -> bool) l :
  filter f l = [] \/ exists earlier r, filter f l = (earlier ++ [r])%list.
Proof.
  destruct (filter f l) as [|x xs] using rev_ind.
  - now left.
  - right. now exists xs, x.
Qed.

(** ** The loop over the lines *)

Lemma loop_body_emitted acc line :
  loop_body acc line = (acc ++ emitted line)%list.
Proof.
  unfold loop_body, emitted.
  destruct (read_line line); simpl; now rewrite ?app_nil_r.
Qed.

Lemma fold_loop_body lines acc :
  fold_left loop_body lines acc = (acc ++ flat_map emitted lines)%list.
Proof.
  revert acc. induction lines as [|l ls IH]; intros acc; simpl.
  - now rewrite app_nil_r.
  - rewrite IH, loop_body_emitted, <- app_assoc. reflexivity.
Qed.

Lemma truthy_not_empty s : Py.truthy s = negb (s =? "").
Proof. destruct s; reflexivity. Qed.

Lemma read_line_skipped line :
  Doc.is_data_line line = false -> read_line line = Continue_comment_or_empty.
Proof.
  unfold Doc.is_data_line, Doc.is_blank, Doc.is_comment, read_line, Py.startswith.
  rewrite truthy_not_empty, <- negb_orb, negb_false_iff, negb_involutive.
  intros ->. reflexivity.
Qed.

Lemma read_line_short line :
  Doc.is_data_line line = true ->
  Doc.enough_fields (Doc.fields line) = false ->
  read_line line = Continue_not_valid.
Proof.
  unfold Doc.is_data_line, Doc.is_blank, Doc.is_comment, Doc.enough_fields,
    Doc.fields, read_line, Py.startswith, parts_of.
  rewrite truthy_not_empty, <- negb_orb, negb_true_iff, negb_involutive.
  intros -> H. rewrite Nat.ltb_antisym, H. reflexivity.
Qed.

Lemma read_line_accepted line :
  Doc.is_data_line line = true ->
  Doc.enough_fields (Doc.fields line) = true ->
  exists p,
    read_line line = Append_partition p
    /\ Doc.core p = Doc.core_of_fields (Doc.fields line)
    /\ flags p = if (5 <? length (Doc.fields line))%nat
                 then nth 5 (Doc.fields line) "" else "".
Proof.
  unfold Doc.is_data_line, Doc.is_blank, Doc.is_comment, Doc.enough_fields,
    Doc.fields, read_line, Py.startswith, parts_of.
  rewrite truthy_not_empty, <- negb_orb, negb_true_iff, negb_involutive.
  intros -> H. rewrite Nat.ltb_antisym, H. simpl.
  eexists. repeat split.
Qed.

(** A line is accepted exactly when it is a data line with five fields. *)
Lemma read_line_Append line p :
  read_line line = Append_partition p ->
  Doc.is_data_line line = true /\ Doc.enough_fields (Doc.fields line) = true.
Proof.
  intros H.
  destruct (Doc.is_data_line line) eqn:D.
  - destruct (Doc.enough_fields (Doc.fields line)) eqn:E; [now split|].
    rewrite (read_line_short _ D E) in H. discriminate.
  - rewrite (read_line_skipped _ D) in H. discriminate.
Qed.

Lemma cores_emitted line :
  map Doc.core (emitted line)
  = if Doc.is_data_line line && Doc.enough_fields (Doc.fields line)
    then [Doc.core_of_fields (Doc.fields line)] else [].
Proof.
  unfold emitted.
  destruct (Doc.is_data_line line) eqn:D; simpl.
  - destruct (Doc.enough_fields (Doc.fields line)) eqn:E.
    + destruct (read_line_accepted _ D E) as (p & -> & C & _).
      simpl. now rewrite C.
    + now rewrite (read_line_short _ D E).
  - now rewrite (read_line_skipped _ D).
Qed.

Lemma cores_flat_map lines :
  map Doc.core (flat_map emitted lines) = Doc.expected_cores lines.
Proof.
  unfold Doc.expected_cores.
  induction lines as [|l ls IH]; [reflexivity|].
  simpl flat_map. rewrite map_app, IH, cores_emitted. simpl filter.
  destruct (Doc.is_data_line l); simpl; [|reflexivity].
  destruct (Doc.enough_fields (Doc.fields l)); reflexivity.
Qed.

(** ** The partition table reader *)

(** C4: the table read from a file holds, in file order, one record for each
    line that is neither blank nor a comment and has at least five trimmed
    comma-separated fields, its name, type, subtype, offset and size being
    fields 0 to 4; a line with fewer than five fields adds nothing. *)
Theorem reader_one_record_per_data_line h w content :
  files h (partition_table_file_name h) = Some (Readable content) ->
  exists tbl,
    get_partition_table h w = (w, Returned tbl)
    /\ map Doc.core tbl = Doc.expected_cores (Py.readlines content)
    /\ forall acc line,
         length (Doc.fields line) < 5 -> loop_body acc line = acc.
Proof.
  intros Hf. eexists. split; [apply (get_partition_table_found _ _ _ Hf)|].
  split.
  - rewrite fold_loop_body. simpl. apply cores_flat_map.
  - intros acc line Hlen. rewrite loop_body_emitted. unfold emitted.
    destruct (read_line line) as [| |p] eqn:R; try apply app_nil_r.
    apply read_line_Append in R. destruct R as [_ E].
    unfold Doc.enough_fields in E. apply Nat.leb_le in E. lia.
Qed.

Lemma reader_one_record_per_data_line_witness :
  exists tbl,
    get_partition_table Scenario.h Scenario.w0 = (Scenario.w0, Returned tbl)
    /\ map Doc.core tbl = Doc.expected_cores (Py.readlines Scenario.table)
    /\ forall acc line,
         length (Doc.fields line) < 5 -> loop_body acc line = acc.
Proof.
  apply (reader_one_record_per_data_line Scenario.h Scenario.w0 Scenario.table).
  reflexivity.
Defined.

Lemma flags_flat_map lines :
  Forall2
    (fun f p =>
       (length f = 5 -> flags p = "")
       /\ (6 <= length f -> flags p = nth 5 f ""))
    (filter Doc.enough_fields (map Doc.fields (filter Doc.is_data_line lines)))
    (flat_map emitted lines).
Proof.
  induction lines as [|l ls IH]; [constructor|].
  simpl flat_map. simpl filter. unfold emitted at 1.
  destruct (Doc.is_data_line l) eqn:D.
  - simpl map. simpl filter.
    destruct (Doc.enough_fields (Doc.fields l)) eqn:E.
    + destruct (read_line_accepted _ D E) as (p & -> & _ & F).
      simpl. constructor; [|exact IH].
      rewrite F. split; intros H.
      * rewrite H. reflexivity.
      * destruct (Nat.ltb_spec 5 (length (Doc.fields l)));
          [reflexivity | lia].
    + rewrite (read_line_short _ D E). exact IH.
  - rewrite (read_line_skipped _ D). exact IH.
Qed.

(** C5: the loop body appends, for a line that is neither blank nor a comment
    and has at least five fields, one record whose flags are the empty string
    when the fields are exactly five and the field of index 5 when they are
    six or more; and the records of the table the reader returns have, each
    against the fields of its line and in file order, exactly those flags. *)
Theorem accepted_line_flags h w content :
  files h (partition_table_file_name h) = Some (Readable content) ->
  (forall acc line,
     Doc.is_data_line line = true -> 5 <= length (Doc.fields line) ->
     exists p,
       loop_body acc line = (acc ++ [p])%list
       /\ (length (Doc.fields line) = 5 -> flags p = "")
       /\ (6 <= length (Doc.fields line) ->
           flags p = nth 5 (Doc.fields line) ""))
  /\ exists tbl,
       get_partition_table h w = (w, Returned tbl)
       /\ Forall2
            (fun f p =>
               (length f = 5 -> flags p = "")
               /\ (6 <= length f -> flags p = nth 5 f ""))
            (filter Doc.enough_fields
               (map Doc.fields
                  (filter Doc.is_data_line (Py.readlines content))))
            tbl.
Proof.
  intros Hf. split.
  - intros acc line D L.
    assert (E : Doc.enough_fields (Doc.fields line) = true)
      by now apply Nat.leb_le.
    destruct (read_line_accepted _ D E) as (p & R & _ & F).
    exists p. split; [unfold loop_body; now rewrite R|].
    rewrite F. split; intros H.
    + rewrite H. reflexivity.
    + destruct (Nat.ltb_spec 5 (length (Doc.fields line)));
        [reflexivity | lia].
  - eexists. split; [apply (get_partition_table_found _ _ _ Hf)|].
    rewrite fold_loop_body. simpl. apply flags_flat_map.
Qed.

Lemma accepted_line_flags_witness :
  (forall acc line,
     Doc.is_data_line line = true -> 5 <= length (Doc.fields line) ->
     exists p,
       loop_body acc line = (acc ++ [p])%list
       /\ (length (Doc.fields line) = 5 -> flags p = "")
       /\ (6 <= length (Doc.fields line) ->
           flags p = nth 5 (Doc.fields line) ""))
  /\ exists tbl,
       get_partition_table Scenario.h_flags Scenario.w0
       = (Scenario.w0, Returned tbl)
       /\ Forall2
            (fun f p =>
               (length f = 5 -> flags p = "")
               /\ (6 <= length f -> flags p = nth 5 f ""))
            (filter Doc.enough_fields
               (map Doc.fields
                  (filter Doc.is_data_line
                     (Py.readlines Scenario.table_flags))))
            tbl.
Proof.
  apply (accepted_line_flags Scenario.h_flags Scenario.w0 Scenario.table_flags).
  reflexivity.
Defined.

(** C6: a line whose stripped text is empty or starts with '#' takes the
    first [continue], whatever its number of fields, and adds no record:
    the table is the one read without that line. *)
Theorem blank_and_comment_lines_skipped line :
  Doc.is_blank line = true \/ Doc.is_comment line = true ->
  read_line line = Continue_comment_or_empty
  /\ (forall acc, loop_body acc line = acc)
  /\ forall before after,
       fold_left loop_body (before ++ line :: after)%list []
       = fold_left loop_body (before ++ after)%list [].
Proof.
  intros H.
  assert (D : Doc.is_data_line line = false).
  { unfold Doc.is_data_line. destruct H as [-> | ->];
      [reflexivity | apply andb_false_r]. }
  pose proof (read_line_skipped _ D) as R.
  assert (L : forall acc, loop_body acc line = acc).
  { intros acc. unfold loop_body. now rewrite R. }
  repeat split; try assumption.
  intros before after. rewrite !fold_left_app. simpl. now rewrite L.
Qed.

Lemma blank_and_comment_lines_skipped_witness :
  read_line "  # a, b, c, d, e, f" = Continue_comment_or_empty
  /\ (forall acc, loop_body acc "  # a, b, c, d, e, f" = acc)
  /\ forall before after,
       fold_left loop_body (before ++ "  # a, b, c, d, e, f" :: after)%list []
       = fold_left loop_body (before ++ after)%list [].
Proof.
  apply (blank_and_comment_lines_skipped "  # a, b, c, d, e, f").
  right. reflexivity.
Defined.

(** C7: when the table path names no regular file, the reader returns the
    empty table after one diagnostic on the error stream; it does not raise,
    and an upload run goes on to the gates with that empty table. *)
Theorem missing_table_is_empty h w :
  isfile h (partition_table_file_name h) = false ->
  get_partition_table h w
  = ({| stdout := stdout w;
        stderr := stderr w ++ [no_table_message];
        FLASH_EXTRA_IMAGES := FLASH_EXTRA_IMAGES w |}, Returned [])
  /\ (In "upload" (argv h) ->
      exists w1 img,
        get_factory_image h w = (w1, Returned img)
        /\ main h w
           = gates img []
               {| stdout := stdout w1;
                  stderr := stderr w1 ++ [no_table_message];
                  FLASH_EXTRA_IMAGES := FLASH_EXTRA_IMAGES w1 |}).
Proof.
  intros Hf. split; [apply (get_partition_table_missing _ _ Hf)|].
  intros Hu. destruct (get_factory_image_returns h w) as (w1 & img & Hi & _).
  exists w1, img. split; [assumption|].
  apply (main_upload _ _ _ _ _ _ Hu Hi).
  apply (get_partition_table_missing _ _ Hf).
Qed.

Lemma missing_table_is_empty_witness :
  get_partition_table Scenario.h_no_table Scenario.w0
  = ({| stdout := []; stderr := [no_table_message];
        FLASH_EXTRA_IMAGES := [] |}, Returned [])
  /\ exists w1 img,
       get_factory_image Scenario.h_no_table Scenario.w0 = (w1, Returned img)
       /\ main Scenario.h_no_table Scenario.w0
          = gates img []
              {| stdout := stdout w1;
                 stderr := stderr w1 ++ [no_table_message];
                 FLASH_EXTRA_IMAGES := FLASH_EXTRA_IMAGES w1 |}.
Proof.
  destruct (missing_table_is_empty Scenario.h_no_table Scenario.w0 eq_refl)
    as [Hreader Hrun].
  split; [exact Hreader|].
  apply Hrun. simpl. tauto.
Defined.

(** C10: the path given to the existence check is the project directory,
    a slash and the board's relative path, hence never empty; the test on the
    path itself always passes, and the reader ends with the empty table and
    the diagnostic exactly when the path names no regular file. *)
Theorem table_path_never_empty h :
  partition_table_file_name h = PROJECT_DIR h ++ "/" ++ build_partitions h
  /\ partition_table_file_name h <> ""
  /\ Py.truthy (partition_table_file_name h)
     && isfile h (partition_table_file_name h)
     = isfile h (partition_table_file_name h)
  /\ forall w,
       get_partition_table h w
       = ({| stdout := stdout w;
             stderr := stderr w ++ [no_table_message];
             FLASH_EXTRA_IMAGES := FLASH_EXTRA_IMAGES w |}, Returned [])
       <-> isfile h (partition_table_file_name h) = false.
Proof.
  split; [reflexivity|]. split; [apply file_name_not_empty|].
  split; [now rewrite file_name_truthy|].
  intros w. split.
  - intros H. destruct (isfile h (partition_table_file_name h)) eqn:Hf;
      [|reflexivity].
    apply isfile_true in Hf. destruct Hf as [[c|e] Hc].
    + rewrite (get_partition_table_found _ _ _ Hc) in H.
      injection H as Hw _. apply (f_equal stderr) in Hw. simpl in Hw.
      apply (f_equal (@length string)) in Hw. rewrite length_app in Hw.
      simpl in Hw. lia.
    + rewrite (get_partition_table_unreadable _ _ _ Hc) in H. discriminate.
  - apply get_partition_table_missing.
Qed.

(** ** The gates of the upload block *)

Lemma no_factory_filter tbl :
  (forall p, In p tbl -> name p <> FACTORY_PARTITION_NAME) ->
  filter Doc.is_factory tbl = [].
Proof.
  intros H. induction tbl as [|p t IH]; [reflexivity|].
  simpl. unfold Doc.is_factory at 1.
  destruct (String.eqb_spec (name p) FACTORY_PARTITION_NAME) as [E|_].
  - exfalso. apply (H p); [now left | assumption].
  - apply IH. intros q Hq. apply H. now right.
Qed.

Lemma factory_filter tbl r :
  In r tbl -> name r = FACTORY_PARTITION_NAME ->
  exists earlier last, filter Doc.is_factory tbl = (earlier ++ [last])%list.
Proof.
  intros Hin Hn.
  destruct (filter_nil_or_last Doc.is_factory tbl) as [E|E]; [|assumption].
  assert (Hr : In r (filter Doc.is_factory tbl)).
  { apply filter_In. split; [assumption|].
    unfold Doc.is_factory. now apply String.eqb_eq. }
  rewrite E in Hr. contradiction.
Qed.

Lemma gates_no_image tbl w :
  gates None tbl w = (w, Raised no_image_message).
Proof. reflexivity. Qed.

Lemma gates_no_factory image tbl w :
  filter Doc.is_factory tbl = [] ->
  gates (Some image) tbl w = (w, Raised no_offset_message).
Proof.
  intros H. unfold gates. now rewrite (find_offset_no_factory _ _ H).
Qed.

Lemma gates_last_factory image tbl w earlier r :
  filter Doc.is_factory tbl = (earlier ++ [r])%list ->
  gates (Some image) tbl w
  = ({| stdout := stdout w;
        stderr := stderr w;
        FLASH_EXTRA_IMAGES := FLASH_EXTRA_IMAGES w ++ [(offset r, image)] |},
     Returned tt).
Proof.
  intros H. unfold gates.
  now rewrite (find_offset_last_factory _ _ _ _ H).
Qed.

(** C1, as the code has it: with an image resolved and no record named
    factory in the table, the run raises the error that names the partition
    and the list of extra images is as before. *)
Theorem no_factory_partition_raises h w w1 w2 image tbl :
  In "upload" (argv h) ->
  get_factory_image h w = (w1, Returned (Some image)) ->
  get_partition_table h w1 = (w2, Returned tbl) ->
  (forall p, In p tbl -> name p <> FACTORY_PARTITION_NAME) ->
  exists w',
    main h w
    = (w', Raised ("No offset found for partition: "
                   ++ FACTORY_PARTITION_NAME ++ "!"))
    /\ FLASH_EXTRA_IMAGES w' = FLASH_EXTRA_IMAGES w.
Proof.
  intros Hu Hi Ht Hn. exists w2. split.
  - rewrite (main_upload _ _ _ _ _ _ Hu Hi Ht).
    apply gates_no_factory, no_factory_filter, Hn.
  - rewrite (get_partition_table_keeps _ _ _ _ Ht).
    apply (get_factory_image_keeps _ _ _ _ Hi).
Qed.

Lemma no_factory_partition_raises_witness :
  exists w',
    main Scenario.h_nvs Scenario.w0
    = (w', Raised ("No offset found for partition: "
                   ++ FACTORY_PARTITION_NAME ++ "!"))
    /\ FLASH_EXTRA_IMAGES w' = FLASH_EXTRA_IMAGES Scenario.w0.
Proof.
  apply (no_factory_partition_raises Scenario.h_nvs Scenario.w0 Scenario.w0
           Scenario.w0 "/prj/build/factory.bin"
           [ {| name := "nvs"; type := "data"; subtype := "nvs";
                offset := "0x9000"; size := "0x5000"; flags := "" |} ]).
  - simpl. tauto.
  - reflexivity.
  - reflexivity.
  - intros p [<- | []]. discriminate.
Defined.

(** C1 fails where the only factory record has the offset string "0": the
    image is resolved, every record named factory has offset "0", and yet
    the run returns with ("0", image) registered instead of raising. *)
Lemma zero_offset_is_registered :
  get_factory_image Scenario.h_zero Scenario.w0
  = (Scenario.w0, Returned (Some "/prj/build/factory.bin"))
  /\ get_partition_table Scenario.h_zero Scenario.w0
     = (Scenario.w0,
        Returned
          [ {| name := "nvs"; type := "data"; subtype := "nvs";
               offset := "0x9000"; size := "0x5000"; flags := "" |};
            Scenario.factory_at "0" ])
  /\ (forall p,
        In p [ {| name := "nvs"; type := "data"; subtype := "nvs";
                  offset := "0x9000"; size := "0x5000"; flags := "" |};
               Scenario.factory_at "0" ] ->
        name p = "factory" -> offset p = "0")
  /\ main Scenario.h_zero Scenario.w0
     = ({| stdout := []; stderr := [];
           FLASH_EXTRA_IMAGES := [("0", "/prj/build/factory.bin")] |},
        Returned tt)
  /\ (forall w' msg, main Scenario.h_zero Scenario.w0 <> (w', Raised msg)).
Proof.
  split; [reflexivity|]. split; [reflexivity|]. split.
  - intros p [<- | [<- | []]]; [discriminate | reflexivity].
  - split; [reflexivity|]. intros w' msg H.
    apply (f_equal snd) in H. vm_compute in H. discriminate.
Qed.

(** C2, as the code has it: with an image resolved and a record named
    factory whose offset is not "0" in the table, the run returns having
    appended exactly one entry, the offset of the last record named factory
    paired with the image path. *)
Theorem factory_partition_registers h w w1 w2 image tbl r :
  In "upload" (argv h) ->
  get_factory_image h w = (w1, Returned (Some image)) ->
  get_partition_table h w1 = (w2, Returned tbl) ->
  In r tbl -> name r = FACTORY_PARTITION_NAME -> offset r <> "0" ->
  exists w' earlier final,
    filter Doc.is_factory tbl = (earlier ++ [final])%list
    /\ main h w = (w', Returned tt)
    /\ FLASH_EXTRA_IMAGES w'
       = (FLASH_EXTRA_IMAGES w ++ [(offset final, image)])%list.
Proof.
  intros Hu Hi Ht Hin Hn _.
  destruct (factory_filter _ _ Hin Hn) as (earlier & final & Hf).
  eexists _, earlier, final. split; [assumption|]. split.
  - rewrite (main_upload _ _ _ _ _ _ Hu Hi Ht).
    apply (gates_last_factory _ _ _ _ _ Hf).
  - simpl. rewrite (get_partition_table_keeps _ _ _ _ Ht).
    now rewrite (get_factory_image_keeps _ _ _ _ Hi).
Qed.

Lemma factory_partition_registers_witness :
  exists w' earlier final,
    filter Doc.is_factory
      [Scenario.factory_at "0x10000"; Scenario.factory_at "0x20000"]
    = (earlier ++ [final])%list
    /\ main Scenario.h_twice Scenario.w0 = (w', Returned tt)
    /\ FLASH_EXTRA_IMAGES w'
       = (FLASH_EXTRA_IMAGES Scenario.w0
          ++ [(offset final, "/prj/build/factory.bin")])%list.
Proof.
  apply (factory_partition_registers Scenario.h_twice Scenario.w0 Scenario.w0
           Scenario.w0 "/prj/build/factory.bin"
           [Scenario.factory_at "0x10000"; Scenario.factory_at "0x20000"]
           (Scenario.factory_at "0x10000")).
  - simpl. tauto.
  - reflexivity.
  - reflexivity.
  - left. reflexivity.
  - reflexivity.
  - discriminate.
Defined.

(** C2 fails on a table with two records named factory: the first has the
    non-zero offset "0x10000", but the entry appended carries "0x20000". *)
Lemma first_factory_offset_not_registered :
  get_factory_image Scenario.h_twice Scenario.w0
  = (Scenario.w0, Returned (Some "/prj/build/factory.bin"))
  /\ get_partition_table Scenario.h_twice Scenario.w0
     = (Scenario.w0,
        Returned [Scenario.factory_at "0x10000"; Scenario.factory_at "0x20000"])
  /\ In (Scenario.factory_at "0x10000")
       [Scenario.factory_at "0x10000"; Scenario.factory_at "0x20000"]
  /\ name (Scenario.factory_at "0x10000") = "factory"
  /\ offset (Scenario.factory_at "0x10000") <> "0"
  /\ FLASH_EXTRA_IMAGES (fst (main Scenario.h_twice Scenario.w0))
     = [("0x20000", "/prj/build/factory.bin")]
  /\ FLASH_EXTRA_IMAGES (fst (main Scenario.h_twice Scenario.w0))
     <> (FLASH_EXTRA_IMAGES Scenario.w0
         ++ [(offset (Scenario.factory_at "0x10000"),
              "/prj/build/factory.bin")])%list.
Proof.
  repeat split; try reflexivity.
  - left. reflexivity.
  - discriminate.
  - vm_compute. discriminate.
Qed.

(** C3, as the code has it: when the factory binary option is empty, or
    names a path that is not a regular file, the image lookup prints one
    diagnostic and returns None; the reader runs next, and when the table
    file is absent or can be read, an upload run raises
    "No factory image found!" with the list of extra images as before. *)
Theorem no_factory_image_raises h w :
  In "upload" (argv h) ->
  FACTORY_BINARY h = ""
  \/ (FACTORY_BINARY h <> ""
      /\ isfile h (Py.path_join (PROJECT_DIR h) (FACTORY_BINARY h)) = false) ->
  (forall error,
     files h (partition_table_file_name h) <> Some (Unreadable error)) ->
  get_factory_image h w
  = ({| stdout :=
          stdout w
          ++ [if FACTORY_BINARY h =? ""
              then "No factory binary specified for environment: "
                   ++ ENV_NAME h ++ "!"
              else "Factory binary: "
                   ++ Py.path_join (PROJECT_DIR h) (FACTORY_BINARY h)
                   ++ " does not exist!"];
        stderr := stderr w;
        FLASH_EXTRA_IMAGES := FLASH_EXTRA_IMAGES w |}, Returned None)
  /\ exists w',
       main h w = (w', Raised "No factory image found!")
       /\ FLASH_EXTRA_IMAGES w' = FLASH_EXTRA_IMAGES w.
Proof.
  intros Hu Hc Hr.
  assert (Hi : get_factory_image h w
               = ({| stdout :=
                       stdout w
                       ++ [if FACTORY_BINARY h =? ""
                           then "No factory binary specified for environment: "
                                ++ ENV_NAME h ++ "!"
                           else "Factory binary: "
                                ++ Py.path_join (PROJECT_DIR h) (FACTORY_BINARY h)
                                ++ " does not exist!"];
                     stderr := stderr w;
                     FLASH_EXTRA_IMAGES := FLASH_EXTRA_IMAGES w |},
                  Returned None)).
  { unfold get_factory_image. destruct Hc as [E | [N F]].
    - rewrite E. reflexivity.
    - apply String.eqb_neq in N. rewrite N, F. reflexivity. }
  split; [exact Hi|].
  destruct (get_partition_table_returns h
              {| stdout :=
                   stdout w
                   ++ [if FACTORY_BINARY h =? ""
                       then "No factory binary specified for environment: "
                            ++ ENV_NAME h ++ "!"
                       else "Factory binary: "
                            ++ Py.path_join (PROJECT_DIR h) (FACTORY_BINARY h)
                            ++ " does not exist!"];
                 stderr := stderr w;
                 FLASH_EXTRA_IMAGES := FLASH_EXTRA_IMAGES w |} Hr)
    as (w2 & tbl & Ht & K).
  exists w2. split.
  - rewrite (main_upload _ _ _ _ _ _ Hu Hi Ht). reflexivity.
  - exact K.
Qed.

Lemma no_factory_image_raises_witness :
  get_factory_image Scenario.h_no_binary Scenario.w0
  = ({| stdout := ["Factory binary: /prj/build/factory.bin does not exist!"];
        stderr := [];
        FLASH_EXTRA_IMAGES := [] |}, Returned None)
  /\ exists w',
       main Scenario.h_no_binary Scenario.w0
       = (w', Raised "No factory image found!")
       /\ FLASH_EXTRA_IMAGES w' = FLASH_EXTRA_IMAGES Scenario.w0.
Proof.
  apply (no_factory_image_raises Scenario.h_no_binary Scenario.w0).
  - simpl. tauto.
  - right. split; [discriminate | reflexivity].
  - intros error H. discriminate.
Defined.

(** C3 fails where the table file exists but is not valid UTF-8: the option
    names a path that is not a regular file and the lookup returns None, but
    the reader, called before the gate, raises its own error, and the run
    ends with that error instead of "No factory image found!". *)
Lemma undecodable_table_raises_first :
  In "upload" (argv Scenario.h_undecodable)
  /\ FACTORY_BINARY Scenario.h_undecodable <> ""
  /\ isfile Scenario.h_undecodable
       (Py.path_join (PROJECT_DIR Scenario.h_undecodable)
          (FACTORY_BINARY Scenario.h_undecodable)) = false
  /\ get_factory_image Scenario.h_undecodable Scenario.w0
     = ({| stdout := ["Factory binary: /prj/build/factory.bin does not exist!"];
           stderr := [];
           FLASH_EXTRA_IMAGES := [] |}, Returned None)
  /\ main Scenario.h_undecodable Scenario.w0
     = ({| stdout := ["Factory binary: /prj/build/factory.bin does not exist!"];
           stderr := [];
           FLASH_EXTRA_IMAGES := [] |}, Raised "UnicodeDecodeError")
  /\ (forall w',
        main Scenario.h_undecodable Scenario.w0
        <> (w', Raised "No factory image found!")).
Proof.
  split; [simpl; tauto|]. split; [discriminate|].
  split; [reflexivity|]. split; [reflexivity|]. split; [reflexivity|].
  intros w' H. apply (f_equal snd) in H. vm_compute in H. discriminate.
Qed.

(** C8: an upload run ends in one way only, either returning with one entry
    appended or raising with the list of extra images as before.  Once the
    reader has returned, two gates in sequence decide.  No image: the run
    raises "No factory image found!".  An image but no record named factory:
    it raises the error naming the partition.  An image and a record named
    factory: it returns with one entry appended.  When the reader itself
    raises, its error ends the run before the gates, nothing appended. *)
Theorem gates_exclusive_and_terminal h w :
  In "upload" (argv h) ->
  (exists w1 img,
     get_factory_image h w = (w1, Returned img)
     /\ ((exists w2 msg,
            get_partition_table h w1 = (w2, Raised msg)
            /\ main h w = (w2, Raised msg)
            /\ FLASH_EXTRA_IMAGES w2 = FLASH_EXTRA_IMAGES w)
         \/ (exists w2 tbl,
               get_partition_table h w1 = (w2, Returned tbl)
               /\ ((img = None
                    /\ main h w = (w2, Raised no_image_message)
                    /\ FLASH_EXTRA_IMAGES w2 = FLASH_EXTRA_IMAGES w)
                   \/ (exists image,
                         img = Some image
                         /\ filter Doc.is_factory tbl = []
                         /\ main h w = (w2, Raised no_offset_message)
                         /\ FLASH_EXTRA_IMAGES w2 = FLASH_EXTRA_IMAGES w)
                   \/ (exists image earlier r w',
                         img = Some image
                         /\ filter Doc.is_factory tbl = (earlier ++ [r])%list
                         /\ main h w = (w', Returned tt)
                         /\ FLASH_EXTRA_IMAGES w'
                            = (FLASH_EXTRA_IMAGES w
                               ++ [(offset r, image)])%list)))))
  /\ (forall w' msg,
        main h w = (w', Raised msg) ->
        FLASH_EXTRA_IMAGES w' = FLASH_EXTRA_IMAGES w)
  /\ (forall w',
        main h w = (w', Returned tt) ->
        exists entry,
          FLASH_EXTRA_IMAGES w' = (FLASH_EXTRA_IMAGES w ++ [entry])%list).
Proof.
  intros Hu.
  destruct (get_factory_image_returns h w) as (w1 & img & Hi & K1).
  pose proof (get_partition_table_keeps_images h w1) as K2.
  destruct (get_partition_table h w1) as [w2 [tbl|msg]] eqn:Ht; simpl in K2.
  2:{ assert (K : FLASH_EXTRA_IMAGES w2 = FLASH_EXTRA_IMAGES w) by congruence.
      rewrite (main_reader_raises _ _ _ _ _ _ Hu Hi Ht).
      split; [|split].
      - exists w1, img. split; [assumption|]. left. now exists w2, msg.
      - intros w' m H. now injection H as <- _.
      - intros w' H. discriminate. }
  assert (K : FLASH_EXTRA_IMAGES w2 = FLASH_EXTRA_IMAGES w) by congruence.
  rewrite (main_upload _ _ _ _ _ _ Hu Hi Ht).
  destruct img as [image|].
  - destruct (filter_nil_or_last Doc.is_factory tbl) as [E | (earlier & r & E)].
    + rewrite (gates_no_factory _ _ _ E). split; [|split].
      * exists w1, (Some image). split; [assumption|]. right.
        exists w2, tbl. split; [assumption|]. right. left.
        exists image. repeat split; assumption.
      * intros w' m H. now injection H as <- _.
      * intros w' H. discriminate.
    + rewrite (gates_last_factory _ _ _ _ _ E). split; [|split].
      * exists w1, (Some image). split; [assumption|]. right.
        exists w2, tbl. split; [assumption|]. right. right.
        eexists image, earlier, r, _.
        repeat split; try assumption. simpl. now rewrite K.
      * intros w' m H. discriminate.
      * intros w' H. injection H as <-. exists (offset r, image).
        simpl. now rewrite K.
  - rewrite gates_no_image. split; [|split].
    + exists w1, None. split; [assumption|]. right.
      exists w2, tbl. split; [assumption|]. left. repeat split; assumption.
    + intros w' m H. now injection H as <- _.
    + intros w' H. discriminate.
Qed.

Lemma gates_exclusive_and_terminal_witness :
  (exists w1 img,
     get_factory_image Scenario.h Scenario.w0 = (w1, Returned img)
     /\ ((exists w2 msg,
            get_partition_table Scenario.h w1 = (w2, Raised msg)
            /\ main Scenario.h Scenario.w0 = (w2, Raised msg)
            /\ FLASH_EXTRA_IMAGES w2 = FLASH_EXTRA_IMAGES Scenario.w0)
         \/ (exists w2 tbl,
               get_partition_table Scenario.h w1 = (w2, Returned tbl)
               /\ ((img = None
                    /\ main Scenario.h Scenario.w0
                       = (w2, Raised no_image_message)
                    /\ FLASH_EXTRA_IMAGES w2
                       = FLASH_EXTRA_IMAGES Scenario.w0)
                   \/ (exists image,
                         img = Some image
                         /\ filter Doc.is_factory tbl = []
                         /\ main Scenario.h Scenario.w0
                            = (w2, Raised no_offset_message)
                         /\ FLASH_EXTRA_IMAGES w2
                            = FLASH_EXTRA_IMAGES Scenario.w0)
                   \/ (exists image earlier r w',
                         img = Some image
                         /\ filter Doc.is_factory tbl = (earlier ++ [r])%list
                         /\ main Scenario.h Scenario.w0 = (w', Returned tt)
                         /\ FLASH_EXTRA_IMAGES w'
                            = (FLASH_EXTRA_IMAGES Scenario.w0
                               ++ [(offset r, image)])%list)))))
  /\ (forall w' msg,
        main Scenario.h Scenario.w0 = (w', Raised msg) ->
        FLASH_EXTRA_IMAGES w' = FLASH_EXTRA_IMAGES Scenario.w0)
  /\ (forall w',
        main Scenario.h Scenario.w0 = (w', Returned tt) ->
        exists entry,
          FLASH_EXTRA_IMAGES w'
          = (FLASH_EXTRA_IMAGES Scenario.w0 ++ [entry])%list).
Proof.
  apply (gates_exclusive_and_terminal Scenario.h Scenario.w0).
  simpl. tauto.
Defined.

(** C9: when the table holds two or more records named factory, the search
    ends with the offset of the last of them in file order, and that offset
    is the one registered with the image. *)
Theorem last_factory_offset_used h w w1 w2 image tbl earlier r :
  In "upload" (argv h) ->
  get_factory_image h w = (w1, Returned (Some image)) ->
  get_partition_table h w1 = (w2, Returned tbl) ->
  filter Doc.is_factory tbl = (earlier ++ [r])%list ->
  1 <= length earlier ->
  find_offset tbl (Py.Int 0) = Py.Str (offset r)
  /\ exists w',
       main h w = (w', Returned tt)
       /\ FLASH_EXTRA_IMAGES w'
          = (FLASH_EXTRA_IMAGES w ++ [(offset r, image)])%list.
Proof.
  intros Hu Hi Ht Hf _. split; [apply (find_offset_last_factory _ _ _ _ Hf)|].
  eexists. split.
  - rewrite (main_upload _ _ _ _ _ _ Hu Hi Ht).
    apply (gates_last_factory _ _ _ _ _ Hf).
  - simpl. rewrite (get_partition_table_keeps _ _ _ _ Ht).
    now rewrite (get_factory_image_keeps _ _ _ _ Hi).
Qed.

Lemma last_factory_offset_used_witness :
  find_offset [Scenario.factory_at "0x10000"; Scenario.factory_at "0x20000"]
    (Py.Int 0)
  = Py.Str "0x20000"
  /\ exists w',
       main Scenario.h_twice Scenario.w0 = (w', Returned tt)
       /\ FLASH_EXTRA_IMAGES w'
          = (FLASH_EXTRA_IMAGES Scenario.w0
             ++ [("0x20000", "/prj/build/factory.bin")])%list.
Proof.
  apply (last_factory_offset_used Scenario.h_twice Scenario.w0 Scenario.w0
           Scenario.w0 "/prj/build/factory.bin"
           [Scenario.factory_at "0x10000"; Scenario.factory_at "0x20000"]
           [Scenario.factory_at "0x10000"] (Scenario.factory_at "0x20000")).
  - simpl. tauto.
  - reflexivity.
  - reflexivity.
  - reflexivity.
  - simpl. lia.
Defined.

(** * Further properties of the script *)

(** ** Stripping *)

Lemma lstrip_all_space a : Text.all_space a = true -> Py.lstrip a = "".
Proof.
  induction a as [|c r IH]; [reflexivity|]. simpl.
  intros H. apply andb_prop in H. destruct H as [-> Hr]. now apply IH.
Qed.

Lemma rstrip_all_space b : Text.all_space b = true -> Py.rstrip b = "".
Proof.
  induction b as [|c r IH]; [reflexivity|]. simpl.
  intros H. apply andb_prop in H. destruct H as [-> Hr]. now rewrite IH.
Qed.

Lemma lstrip_app_space a s :
  Text.all_space a = true -> Py.lstrip (a ++ s) = Py.lstrip s.
Proof.
  induction a as [|c r IH]; [reflexivity|]. simpl.
  intros H. apply andb_prop in H. destruct H as [-> Hr]. now apply IH.
Qed.

Lemma rstrip_app_space s b :
  Text.all_space b = true -> Py.rstrip (s ++ b) = Py.rstrip s.
Proof.
  intros Hb. induction s as [|c r IH]; simpl.
  - now apply rstrip_all_space.
  - now rewrite IH.
Qed.

Lemma lstrip_app s b :
  Py.lstrip (s ++ b)
  = match Py.lstrip s with
    | EmptyString => Py.lstrip b
    | String c t => String c t ++ b
    end.
Proof.
  induction s as [|c r IH]; simpl.
  - destruct (Py.lstrip b); reflexivity.
  - destruct (Py.isspace c); [exact IH | reflexivity].
Qed.

Lemma strip_pad a s b :
  Text.all_space a = true -> Text.all_space b = true ->
  Py.strip (a ++ s ++ b) = Py.strip s.
Proof.
  intros Ha Hb. unfold Py.strip.
  rewrite (lstrip_app_space _ _ Ha), lstrip_app.
  destruct (Py.lstrip s) as [|c t].
  - now rewrite (lstrip_all_space _ Hb).
  - now apply rstrip_app_space.
Qed.

Lemma lstrip_head s :
  Py.lstrip s = ""
  \/ exists c r, Py.lstrip s = String c r /\ Py.isspace c = false.
Proof.
  induction s as [|c r IH]; [now left|]. simpl.
  destruct (Py.isspace c) eqn:E; [exact IH|].
  right. now exists c, r.
Qed.

Lemma rstrip_head c r :
  Py.isspace c = false -> exists r', Py.rstrip (String c r) = String c r'.
Proof.
  intros E. simpl. rewrite E. destruct (Py.rstrip r); eexists; reflexivity.
Qed.

Lemma rstrip_idempotent s : Py.rstrip (Py.rstrip s) = Py.rstrip s.
Proof.
  induction s as [|c r IH]; [reflexivity|]. simpl.
  destruct (Py.rstrip r) as [|d r'] eqn:E.
  - destruct (Py.isspace c) eqn:S; simpl; [reflexivity | now rewrite S].
  - change (Py.rstrip (String c (String d r')))
      with (match Py.rstrip (String d r') with
            | EmptyString =>
                if Py.isspace c then EmptyString else String c EmptyString
            | String e r'' => String c (String e r'')
            end).
    now rewrite IH.
Qed.

Lemma strip_idempotent s : Py.strip (Py.strip s) = Py.strip s.
Proof.
  unfold Py.strip.
  destruct (lstrip_head s) as [-> | (c & r & -> & E)]; [reflexivity|].
  destruct (rstrip_head c r E) as [r' H].
  assert (L : Py.lstrip (Py.rstrip (String c r)) = Py.rstrip (String c r)).
  { rewrite H. simpl. now rewrite E. }
  rewrite L. apply rstrip_idempotent.
Qed.

(** ** Counting separators *)

Lemma count_char_app c a b :
  Text.count_char c (a ++ b) = Text.count_char c a + Text.count_char c b.
Proof.
  induction a as [|d r IH]; [reflexivity|]. simpl. rewrite IH. lia.
Qed.

Lemma count_char_lstrip c s :
  Text.count_char c (Py.lstrip s) <= Text.count_char c s.
Proof.
  induction s as [|d r IH]; [reflexivity|]. simpl.
  destruct (Py.isspace d); simpl; lia.
Qed.

Lemma count_char_rstrip c s :
  Text.count_char c (Py.rstrip s) <= Text.count_char c s.
Proof.
  induction s as [|d r IH]; [reflexivity|]. simpl.
  destruct (Py.rstrip r) as [|e r'].
  - destruct (Py.isspace d); simpl; lia.
  - simpl in *. lia.
Qed.

Lemma count_char_strip c s :
  Text.count_char c (Py.strip s) <= Text.count_char c s.
Proof.
  unfold Py.strip.
  pose proof (count_char_rstrip c (Py.lstrip s)).
  pose proof (count_char_lstrip c s). lia.
Qed.

Lemma split_from_length sep cur s :
  length (Py.split_from sep cur s) = S (Text.count_char sep s).
Proof.
  revert cur. induction s as [|c r IH]; intros cur; [reflexivity|]. simpl.
  destruct (Ascii.eqb c sep); simpl; now rewrite IH.
Qed.

Lemma split_from_no_sep sep cur s :
  Text.count_char sep cur = 0 ->
  Forall (fun f => Text.count_char sep f = 0) (Py.split_from sep cur s).
Proof.
  revert cur. induction s as [|c r IH]; intros cur Hc; simpl.
  - now constructor.
  - destruct (Ascii.eqb c sep) eqn:E.
    + constructor; [assumption | now apply IH].
    + apply IH. rewrite count_char_app. simpl. rewrite E. lia.
Qed.

Lemma fields_length line :
  length (Doc.fields line) = S (Text.count_char ","%char (Py.strip line)).
Proof.
  unfold Doc.fields, Py.split. rewrite length_map. apply split_from_length.
Qed.

Lemma fields_trimmed line : Forall Text.trimmed (Doc.fields line).
Proof.
  unfold Doc.fields. apply Forall_forall. intros f Hf.
  apply in_map_iff in Hf. destruct Hf as (x & <- & _).
  apply strip_idempotent.
Qed.

Lemma fields_no_comma line :
  Forall (fun f => Text.count_char ","%char f = 0) (Doc.fields line).
Proof.
  unfold Doc.fields, Py.split. apply Forall_forall. intros f Hf.
  apply in_map_iff in Hf. destruct Hf as (x & <- & Hx).
  pose proof (split_from_no_sep ","%char "" (Py.strip line) eq_refl) as F.
  rewrite Forall_forall in F. specialize (F x Hx).
  pose proof (count_char_strip ","%char x). lia.
Qed.

Lemma Forall_nth_default {A} (P : A -> Prop) l n d :
  P d -> Forall P l -> P (nth n l d).
Proof.
  intros Hd Hl. revert n. induction Hl as [|x l Hx _ IH]; intros [|n]; simpl;
    auto.
Qed.

(** Whatever holds of the empty string and of every field of a line holds of
    the six values of the record made from it. *)
Lemma record_fields_forall (P : string -> Prop) line p :
  P "" -> Forall P (Doc.fields line) ->
  read_line line = Append_partition p ->
  P (name p) /\ P (type p) /\ P (subtype p) /\ P (offset p) /\ P (size p)
  /\ P (flags p).
Proof.
  intros H0 HF R. destruct (read_line_Append _ _ R) as [D E].
  destruct (read_line_accepted _ D E) as (q & Rq & C & F).
  rewrite R in Rq. injection Rq as <-.
  unfold Doc.core, Doc.core_of_fields in C. injection C as -> -> -> -> ->.
  rewrite F.
  repeat split; try (apply Forall_nth_default; assumption).
  destruct (5 <? length (Doc.fields line))%nat;
    [apply Forall_nth_default|]; assumption.
Qed.

Lemma table_records_from_lines h w w' tbl p :
  get_partition_table h w = (w', Returned tbl) -> In p tbl ->
  exists line, read_line line = Append_partition p.
Proof.
  intros Ht Hp.
  assert (L : exists lines, tbl = flat_map emitted lines).
  { destruct (files h (partition_table_file_name h)) as [[c|e]|] eqn:Hf.
    - rewrite (get_partition_table_found _ _ _ Hf) in Ht.
      injection Ht as _ <-. exists (Py.readlines c). apply fold_loop_body.
    - rewrite (get_partition_table_unreadable _ _ _ Hf) in Ht. discriminate.
    - apply isfile_false in Hf.
      rewrite (get_partition_table_missing _ _ Hf) in Ht.
      injection Ht as _ <-. now exists []. }
  destruct L as [lines ->]. apply in_flat_map in Hp.
  destruct Hp as (line & _ & Hl). exists line. unfold emitted in Hl.
  destruct (read_line line) as [| |q]; try contradiction.
  destruct Hl as [-> | []]. reflexivity.
Qed.

(** ** More on the partition table reader *)

(** X1: whitespace before and after a line, its terminator included, has no
    effect on what the loop body does with the line. *)
Theorem surrounding_whitespace_ignored a line b :
  Text.all_space a = true -> Text.all_space b = true ->
  read_line (a ++ line ++ b) = read_line line.
Proof.
  intros Ha Hb. unfold read_line. now rewrite (strip_pad _ _ _ Ha Hb).
Qed.

Lemma surrounding_whitespace_ignored_witness :
  read_line ("   " ++ "nvs, data, nvs, 0x9000, 0x5000" ++ String Py.CR " ")
  = read_line "nvs, data, nvs, 0x9000, 0x5000".
Proof.
  apply (surrounding_whitespace_ignored "   " "nvs, data, nvs, 0x9000, 0x5000"
           (String Py.CR " ")); reflexivity.
Defined.

(** X2: every value of every record the reader returns is trimmed: none has
    whitespace at either end. *)
Theorem table_values_trimmed h w w' tbl p :
  get_partition_table h w = (w', Returned tbl) -> In p tbl ->
  Text.trimmed (name p) /\ Text.trimmed (type p) /\ Text.trimmed (subtype p)
  /\ Text.trimmed (offset p) /\ Text.trimmed (size p)
  /\ Text.trimmed (flags p).
Proof.
  intros Ht Hp. destruct (table_records_from_lines _ _ _ _ _ Ht Hp) as [line R].
  apply (record_fields_forall Text.trimmed line p);
    [reflexivity | apply fields_trimmed | assumption].
Qed.

Lemma table_values_trimmed_witness :
  Text.trimmed (name (Scenario.factory_at "0x20000"))
  /\ Text.trimmed (type (Scenario.factory_at "0x20000"))
  /\ Text.trimmed (subtype (Scenario.factory_at "0x20000"))
  /\ Text.trimmed (offset (Scenario.factory_at "0x20000"))
  /\ Text.trimmed (size (Scenario.factory_at "0x20000"))
  /\ Text.trimmed (flags (Scenario.factory_at "0x20000")).
Proof.
  apply (table_values_trimmed Scenario.h_twice Scenario.w0 Scenario.w0
           [Scenario.factory_at "0x10000"; Scenario.factory_at "0x20000"]).
  - reflexivity.
  - right. left. reflexivity.
Defined.

(** X3: no value of a record the reader returns contains a comma. *)
Theorem table_values_without_comma h w w' tbl p :
  get_partition_table h w = (w', Returned tbl) -> In p tbl ->
  Text.count_char ","%char (name p) = 0
  /\ Text.count_char ","%char (type p) = 0
  /\ Text.count_char ","%char (subtype p) = 0
  /\ Text.count_char ","%char (offset p) = 0
  /\ Text.count_char ","%char (size p) = 0
  /\ Text.count_char ","%char (flags p) = 0.
Proof.
  intros Ht Hp. destruct (table_records_from_lines _ _ _ _ _ Ht Hp) as [line R].
  apply (record_fields_forall
           (fun f => Text.count_char ","%char f = 0) line p);
    [reflexivity | apply fields_no_comma | assumption].
Qed.

Lemma table_values_without_comma_witness :
  Text.count_char ","%char (name (Scenario.factory_at "0x10000")) = 0
  /\ Text.count_char ","%char (type (Scenario.factory_at "0x10000")) = 0
  /\ Text.count_char ","%char (subtype (Scenario.factory_at "0x10000")) = 0
  /\ Text.count_char ","%char (offset (Scenario.factory_at "0x10000")) = 0
  /\ Text.count_char ","%char (size (Scenario.factory_at "0x10000")) = 0
  /\ Text.count_char ","%char (flags (Scenario.factory_at "0x10000")) = 0.
Proof.
  apply (table_values_without_comma Scenario.h_twice Scenario.w0 Scenario.w0
           [Scenario.factory_at "0x10000"; Scenario.factory_at "0x20000"]).
  - reflexivity.
  - left. reflexivity.
Defined.

(** X4: a line that is neither blank nor a comment gives a record exactly
    when its stripped text holds at least four commas. *)
Theorem accepted_iff_four_commas line :
  Doc.is_data_line line = true ->
  (exists p, read_line line = Append_partition p)
  <-> 4 <= Text.count_char ","%char (Py.strip line).
Proof.
  intros D. pose proof (fields_length line) as L. split.
  - intros [p R]. apply read_line_Append in R. destruct R as [_ E].
    unfold Doc.enough_fields in E. apply Nat.leb_le in E. lia.
  - intros H.
    assert (E : Doc.enough_fields (Doc.fields line) = true).
    { unfold Doc.enough_fields. apply Nat.leb_le. lia. }
    destruct (read_line_accepted _ D E) as (p & R & _). now exists p.
Qed.

Lemma accepted_iff_four_commas_witness :
  (exists p, read_line "nvs, data, nvs, 0x9000, 0x5000" = Append_partition p)
  <-> 4 <= Text.count_char ","%char (Py.strip "nvs, data, nvs, 0x9000, 0x5000").
Proof.
  apply (accepted_iff_four_commas "nvs, data, nvs, 0x9000, 0x5000").
  reflexivity.
Defined.

Lemma readlines_from_crlf cur s :
  Text.count_char Py.CR s = 0 ->
  Py.readlines_from cur (Text.crlf s) = Py.readlines_from cur s.
Proof.
  revert cur. induction s as [|c r IH]; intros cur H; [reflexivity|].
  simpl in H.
  destruct (Ascii.eqb c Py.CR) eqn:EC; [discriminate|]. simpl in H.
  destruct (Ascii.eqb c Py.LF) eqn:EL.
  - apply Ascii.eqb_eq in EL. subst c. simpl. now rewrite IH.
  - simpl. rewrite EL. simpl. rewrite EL, EC. now apply IH.
Qed.

(** X5: a file written with CR LF line ends gives the same lines, hence the
    same table, as the file written with LF. *)
Theorem crlf_file_same_table content :
  Text.count_char Py.CR content = 0 ->
  Py.readlines (Text.crlf content) = Py.readlines content
  /\ Text.table_of (Text.crlf content) = Text.table_of content.
Proof.
  intros H.
  assert (L : Py.readlines (Text.crlf content) = Py.readlines content)
    by now apply readlines_from_crlf.
  split; [exact L|]. unfold Text.table_of. now rewrite L.
Qed.

Lemma crlf_file_same_table_witness :
  Py.readlines (Text.crlf Scenario.table) = Py.readlines Scenario.table
  /\ Text.table_of (Text.crlf Scenario.table) = Text.table_of Scenario.table.
Proof.
  apply (crlf_file_same_table Scenario.table). reflexivity.
Defined.

(** ** More on the image lookup *)

Lemma get_factory_image_cases h w :
  get_factory_image h w
  = if image_found h then (w, Returned (Some (image_path h)))
    else ({| stdout := stdout w ++ [image_diagnostic h];
             stderr := stderr w;
             FLASH_EXTRA_IMAGES := FLASH_EXTRA_IMAGES w |}, Returned None).
Proof.
  unfold get_factory_image, image_found, image_diagnostic, image_path.
  destruct (FACTORY_BINARY h =? ""); simpl; [reflexivity|].
  destruct (isfile h _); reflexivity.
Qed.

Lemma get_partition_table_cases h w :
  get_partition_table h w
  = match files h (partition_table_file_name h) with
    | Some (Readable content) => (w, Returned (Text.table_of content))
    | Some (Unreadable error) => (w, Raised error)
    | None => ({| stdout := stdout w;
                  stderr := stderr w ++ [no_table_message];
                  FLASH_EXTRA_IMAGES := FLASH_EXTRA_IMAGES w |}, Returned [])
    end.
Proof.
  destruct (files h (partition_table_file_name h)) as [[c|e]|] eqn:Hf.
  - apply (get_partition_table_found _ _ _ Hf).
  - apply (get_partition_table_unreadable _ _ _ Hf).
  - apply isfile_false in Hf. apply (get_partition_table_missing _ _ Hf).
Qed.

Lemma gates_keeps_streams img tbl w :
  stdout (fst (gates img tbl w)) = stdout w
  /\ stderr (fst (gates img tbl w)) = stderr w.
Proof.
  unfold gates. destruct img as [image|]; [|now split].
  destruct (Py.ne _ _); now split.
Qed.

(** X6: the image lookup returns a path exactly when the option is set and
    the joined path is a regular file; the path returned is that joined path
    and nothing is printed. *)
Theorem resolved_image_exists h w w' img :
  get_factory_image h w = (w', Returned (Some img))
  <-> FACTORY_BINARY h <> ""
      /\ img = Py.path_join (PROJECT_DIR h) (FACTORY_BINARY h)
      /\ isfile h img = true
      /\ w' = w.
Proof.
  rewrite get_factory_image_cases. unfold image_found, image_path. split.
  - destruct (String.eqb_spec (FACTORY_BINARY h) "") as [E|N]; simpl;
      [discriminate|].
    destruct (isfile h _) eqn:F; [|discriminate].
    intros H. injection H as <- <-. repeat split; assumption.
  - intros (N & -> & F & ->). apply String.eqb_neq in N.
    rewrite N, F. reflexivity.
Qed.

(** X7: an absolute factory binary path is used as it is, without the
    project directory, when it names a regular file. *)
Theorem absolute_factory_binary h w :
  Py.startswith (FACTORY_BINARY h) "/" = true ->
  isfile h (FACTORY_BINARY h) = true ->
  get_factory_image h w = (w, Returned (Some (FACTORY_BINARY h))).
Proof.
  intros Ha Hf. rewrite get_factory_image_cases.
  unfold image_found, image_path, Py.path_join. rewrite Ha, Hf.
  destruct (FACTORY_BINARY h); [discriminate | reflexivity].
Qed.

Lemma absolute_factory_binary_witness :
  get_factory_image absolute_project Scenario.w0
  = (Scenario.w0, Returned (Some "/opt/images/factory.bin")).
Proof.
  apply (absolute_factory_binary absolute_project Scenario.w0); reflexivity.
Defined.

(** ** More on the upload block *)

(** X8: without [upload] among the arguments the script returns at once:
    nothing is printed, nothing is read and the list of images is as before,
    whatever the project holds. *)
Theorem no_upload_no_effect h w :
  ~ In "upload" (argv h) -> main h w = (w, Returned tt).
Proof.
  intros H. unfold main.
  destruct (existsb (String.eqb "upload") (argv h)) eqn:E; [|reflexivity].
  apply upload_in_argv in E. contradiction.
Qed.

Lemma no_upload_no_effect_witness :
  main build_only Scenario.w0 = (Scenario.w0, Returned tt).
Proof.
  apply (no_upload_no_effect build_only Scenario.w0).
  simpl. intros [H | [H | []]]; discriminate.
Defined.

Lemma main_upload_cases h w :
  In "upload" (argv h) ->
  main h w
  = match files h (partition_table_file_name h) with
    | Some (Readable content) =>
        gates (if image_found h then Some (image_path h) else None)
          (Text.table_of content)
          {| stdout := stdout w ++ (if image_found h then []
                                    else [image_diagnostic h]);
             stderr := stderr w;
             FLASH_EXTRA_IMAGES := FLASH_EXTRA_IMAGES w |}
    | Some (Unreadable error) =>
        ({| stdout := stdout w ++ (if image_found h then []
                                   else [image_diagnostic h]);
            stderr := stderr w;
            FLASH_EXTRA_IMAGES := FLASH_EXTRA_IMAGES w |}, Raised error)
    | None =>
        gates (if image_found h then Some (image_path h) else None) []
          {| stdout := stdout w ++ (if image_found h then []
                                    else [image_diagnostic h]);
             stderr := stderr w ++ [no_table_message];
             FLASH_EXTRA_IMAGES := FLASH_EXTRA_IMAGES w |}
    end.
Proof.
  intros Hu.
  pose proof (get_factory_image_cases h w) as Hi.
  assert (W : forall w0 : world,
             {| stdout := stdout w0 ++ [];
                stderr := stderr w0;
                FLASH_EXTRA_IMAGES := FLASH_EXTRA_IMAGES w0 |} = w0).
  { intros [o e f]. simpl. now rewrite app_nil_r. }
  destruct (image_found h).
  - pose proof (get_partition_table_cases h w) as Ht.
    destruct (files h (partition_table_file_name h)) as [[c|e]|].
    + rewrite (main_upload _ _ _ _ _ _ Hu Hi Ht). now rewrite W.
    + rewrite (main_reader_raises _ _ _ _ _ _ Hu Hi Ht). now rewrite W.
    + rewrite (main_upload _ _ _ _ _ _ Hu Hi Ht). now rewrite app_nil_r.
  - pose proof (get_partition_table_cases h
                  {| stdout := stdout w ++ [image_diagnostic h];
                     stderr := stderr w;
                     FLASH_EXTRA_IMAGES := FLASH_EXTRA_IMAGES w |}) as Ht.
    destruct (files h (partition_table_file_name h)) as [[c|e]|].
    + apply (main_upload _ _ _ _ _ _ Hu Hi Ht).
    + apply (main_reader_raises _ _ _ _ _ _ Hu Hi Ht).
    + apply (main_upload _ _ _ _ _ _ Hu Hi Ht).
Qed.

(** X9: what an upload run prints.  Standard output gets one line exactly
    when no image is resolved, the error stream gets one line exactly when
    the table path names no regular file; the table is read, and its
    diagnostic printed, even when the image is missing. *)
Theorem diagnostics_of_run h w :
  In "upload" (argv h) ->
  stdout (fst (main h w))
  = (stdout w ++ (if image_found h then [] else [image_diagnostic h]))%list
  /\ stderr (fst (main h w))
     = (stderr w ++ (if isfile h (partition_table_file_name h) then []
                     else [no_table_message]))%list.
Proof.
  intros Hu. rewrite (main_upload_cases _ _ Hu). unfold isfile.
  destruct (files h (partition_table_file_name h)) as [[c|e]|].
  - destruct (gates_keeps_streams
                (if image_found h then Some (image_path h) else None)
                (Text.table_of c)
                {| stdout := stdout w ++ (if image_found h then []
                                          else [image_diagnostic h]);
                   stderr := stderr w;
                   FLASH_EXTRA_IMAGES := FLASH_EXTRA_IMAGES w |}) as [-> ->].
    simpl. now rewrite app_nil_r.
  - simpl. now rewrite app_nil_r.
  - destruct (gates_keeps_streams
                (if image_found h then Some (image_path h) else None) []
                {| stdout := stdout w ++ (if image_found h then []
                                          else [image_diagnostic h]);
                   stderr := stderr w ++ [no_table_message];
                   FLASH_EXTRA_IMAGES := FLASH_EXTRA_IMAGES w |}) as [-> ->].
    now split.
Qed.

Lemma diagnostics_of_run_witness :
  stdout (fst (main Scenario.h_no_binary Scenario.w0))
  = (stdout Scenario.w0
     ++ (if image_found Scenario.h_no_binary then []
         else [image_diagnostic Scenario.h_no_binary]))%list
  /\ stderr (fst (main Scenario.h_no_binary Scenario.w0))
     = (stderr Scenario.w0
        ++ (if isfile Scenario.h_no_binary
                 (partition_table_file_name Scenario.h_no_binary)
            then [] else [no_table_message]))%list.
Proof.
  apply (diagnostics_of_run Scenario.h_no_binary Scenario.w0).
  simpl. tauto.
Defined.

Lemma main_registers h w content earlier r :
  In "upload" (argv h) ->
  image_found h = true ->
  files h (partition_table_file_name h) = Some (Readable content) ->
  filter Doc.is_factory (Text.table_of content) = (earlier ++ [r])%list ->
  main h w
  = ({| stdout := stdout w;
        stderr := stderr w;
        FLASH_EXTRA_IMAGES :=
          FLASH_EXTRA_IMAGES w ++ [(offset r, image_path h)] |}, Returned tt).
Proof.
  intros Hu Hi Hf Hr. rewrite (main_upload_cases _ _ Hu).
  rewrite Hi, Hf, (gates_last_factory _ _ _ _ _ Hr).
  simpl. now rewrite !app_nil_r.
Qed.

Lemma main_returned_inv h w w' :
  In "upload" (argv h) ->
  main h w = (w', Returned tt) ->
  image_found h = true
  /\ exists content earlier r,
       files h (partition_table_file_name h) = Some (Readable content)
       /\ filter Doc.is_factory (Text.table_of content) = (earlier ++ [r])%list
       /\ w' = {| stdout := stdout w;
                  stderr := stderr w;
                  FLASH_EXTRA_IMAGES :=
                    FLASH_EXTRA_IMAGES w ++ [(offset r, image_path h)] |}.
Proof.
  intros Hu Hm. pose proof Hm as Hm'.
  rewrite (main_upload_cases _ _ Hu) in Hm.
  destruct (files h (partition_table_file_name h)) as [[content|e]|] eqn:Hf;
    [|discriminate|].
  - destruct (image_found h) eqn:Hi; [|discriminate].
    split; [reflexivity|].
    destruct (filter_nil_or_last Doc.is_factory (Text.table_of content))
      as [E | (earlier & r & E)].
    + rewrite (gates_no_factory _ _ _ E) in Hm. discriminate.
    + exists content, earlier, r. split; [reflexivity|]. split; [assumption|].
      rewrite (main_registers _ _ _ _ _ Hu Hi Hf E) in Hm'.
      injection Hm' as <-. reflexivity.
  - destruct (image_found h); discriminate.
Qed.

Lemma image_found_isfile h :
  image_found h = true ->
  FACTORY_BINARY h <> ""
  /\ isfile h (Py.path_join (PROJECT_DIR h) (FACTORY_BINARY h)) = true.
Proof.
  unfold image_found, image_path. intros H. apply andb_prop in H.
  destruct H as [N F]. split; [|assumption].
  apply negb_true_iff, String.eqb_neq in N. assumption.
Qed.

(** X10: an upload run that returns has printed nothing and has appended one
    entry: the offset of the last record named factory of the table file,
    which exists, paired with the joined image path, which names a regular
    file.  Nothing else of the state has changed. *)
Theorem returned_run_registers_existing_file h w w' :
  In "upload" (argv h) ->
  main h w = (w', Returned tt) ->
  exists content earlier r,
    files h (partition_table_file_name h) = Some (Readable content)
    /\ filter Doc.is_factory (Text.table_of content) = (earlier ++ [r])%list
    /\ FACTORY_BINARY h <> ""
    /\ isfile h (Py.path_join (PROJECT_DIR h) (FACTORY_BINARY h)) = true
    /\ w' = {| stdout := stdout w;
               stderr := stderr w;
               FLASH_EXTRA_IMAGES :=
                 FLASH_EXTRA_IMAGES w
                 ++ [(offset r,
                      Py.path_join (PROJECT_DIR h) (FACTORY_BINARY h))] |}.
Proof.
  intros Hu Hm.
  destruct (main_returned_inv _ _ _ Hu Hm)
    as (Hi & content & earlier & r & Hf & Hr & Hw).
  destruct (image_found_isfile _ Hi) as [N F].
  exists content, earlier, r. repeat split; assumption.
Qed.

Lemma returned_run_registers_existing_file_witness :
  exists content earlier r,
    files Scenario.h (partition_table_file_name Scenario.h)
      = Some (Readable content)
    /\ filter Doc.is_factory (Text.table_of content) = (earlier ++ [r])%list
    /\ FACTORY_BINARY Scenario.h <> ""
    /\ isfile Scenario.h
         (Py.path_join (PROJECT_DIR Scenario.h) (FACTORY_BINARY Scenario.h))
       = true
    /\ {| stdout := []; stderr := [];
          FLASH_EXTRA_IMAGES := [("0x10000", "/prj/build/factory.bin")] |}
       = {| stdout := stdout Scenario.w0;
            stderr := stderr Scenario.w0;
            FLASH_EXTRA_IMAGES :=
              FLASH_EXTRA_IMAGES Scenario.w0
              ++ [(offset r,
                   Py.path_join (PROJECT_DIR Scenario.h)
                     (FACTORY_BINARY Scenario.h))] |}.
Proof.
  apply (returned_run_registers_existing_file Scenario.h Scenario.w0).
  - simpl. tauto.
  - reflexivity.
Defined.

(** X11: with an image resolved but no regular file at the table path, an
    upload run prints the table diagnostic on the error stream and raises
    the error naming the partition; the list of images is as before. *)
Theorem missing_table_with_image_raises h w :
  In "upload" (argv h) ->
  FACTORY_BINARY h <> "" ->
  isfile h (Py.path_join (PROJECT_DIR h) (FACTORY_BINARY h)) = true ->
  isfile h (partition_table_file_name h) = false ->
  main h w
  = ({| stdout := stdout w;
        stderr := stderr w ++ [no_table_message];
        FLASH_EXTRA_IMAGES := FLASH_EXTRA_IMAGES w |},
     Raised "No offset found for partition: factory!").
Proof.
  intros Hu N F Ht. rewrite (main_upload_cases _ _ Hu).
  assert (Hi : image_found h = true).
  { unfold image_found, image_path. apply String.eqb_neq in N.
    now rewrite N, F. }
  apply isfile_false in Ht. rewrite Hi, Ht.
  simpl. now rewrite app_nil_r.
Qed.

Lemma missing_table_with_image_raises_witness :
  main Scenario.h_no_table Scenario.w0
  = ({| stdout := stdout Scenario.w0;
        stderr := stderr Scenario.w0 ++ [no_table_message];
        FLASH_EXTRA_IMAGES := FLASH_EXTRA_IMAGES Scenario.w0 |},
     Raised "No offset found for partition: factory!").
Proof.
  apply (missing_table_with_image_raises Scenario.h_no_table Scenario.w0).
  - simpl. tauto.
  - discriminate.
  - reflexivity.
  - reflexivity.
Defined.

(** X12: the upload block does not look at the list it appends to: run again
    on the state a returned run left, it returns again and the same entry is
    in the list twice. *)
Theorem second_run_appends_again h w w1 :
  In "upload" (argv h) ->
  main h w = (w1, Returned tt) ->
  exists entry w2,
    FLASH_EXTRA_IMAGES w1 = (FLASH_EXTRA_IMAGES w ++ [entry])%list
    /\ main h w1 = (w2, Returned tt)
    /\ FLASH_EXTRA_IMAGES w2 = (FLASH_EXTRA_IMAGES w ++ [entry; entry])%list.
Proof.
  intros Hu Hm.
  destruct (main_returned_inv _ _ _ Hu Hm)
    as (Hi & content & earlier & r & Hf & Hr & ->).
  eexists (offset r, image_path h), _. split; [reflexivity|]. split.
  - apply (main_registers _ _ _ _ _ Hu Hi Hf Hr).
  - simpl. now rewrite <- app_assoc.
Qed.

Lemma second_run_appends_again_witness :
  exists entry w2,
    FLASH_EXTRA_IMAGES
      {| stdout := []; stderr := [];
         FLASH_EXTRA_IMAGES := [("0x10000", "/prj/build/factory.bin")] |}
    = (FLASH_EXTRA_IMAGES Scenario.w0 ++ [entry])%list
    /\ main Scenario.h
         {| stdout := []; stderr := [];
            FLASH_EXTRA_IMAGES := [("0x10000", "/prj/build/factory.bin")] |}
       = (w2, Returned tt)
    /\ FLASH_EXTRA_IMAGES w2
       = (FLASH_EXTRA_IMAGES Scenario.w0 ++ [entry; entry])%list.
Proof.
  apply (second_run_appends_again Scenario.h Scenario.w0).
  - simpl. tauto.
  - reflexivity.
Defined.

Lemma find_offset_filter tbl o :
  find_offset tbl o = find_offset (filter Doc.is_factory tbl) o.
Proof.
  revert o. induction tbl as [|p t IH]; intros o; [reflexivity|].
  simpl filter. unfold Doc.is_factory at 1.
  change (find_offset (p :: t) o)
    with (find_offset t (if name p =? FACTORY_PARTITION_NAME
                         then Py.Str (offset p) else o)).
  destruct (name p =? FACTORY_PARTITION_NAME) eqn:E.
  - change (find_offset (p :: filter Doc.is_factory t) o)
      with (find_offset (filter Doc.is_factory t)
              (if name p =? FACTORY_PARTITION_NAME
               then Py.Str (offset p) else o)).
    rewrite E. apply IH.
  - apply IH.
Qed.

(** X13: the records not named factory have no part in the gates: the block
    ends in the same way on a table and on its records named factory alone. *)
Theorem other_partitions_irrelevant img tbl w :
  gates img tbl w = gates img (filter Doc.is_factory tbl) w.
Proof.
  unfold gates. destruct img as [image|]; [|reflexivity].
  now rewrite <- find_offset_filter.
Qed.

(** X14: when the table path names a regular file that cannot be read or
    decoded, an upload run ends with the reader's error, raised before the
    gates whatever the image lookup gave: the list of images and the error
    stream are as before, and standard output has the image diagnostic when
    no image was resolved. *)
Theorem unreadable_table_raises h w error :
  In "upload" (argv h) ->
  files h (partition_table_file_name h) = Some (Unreadable error) ->
  main h w
  = ({| stdout := stdout w ++ (if image_found h then []
                               else [image_diagnostic h]);
        stderr := stderr w;
        FLASH_EXTRA_IMAGES := FLASH_EXTRA_IMAGES w |}, Raised error).
Proof.
  intros Hu Hf. rewrite (main_upload_cases _ _ Hu). now rewrite Hf.
Qed.

Lemma unreadable_table_raises_witness :
  main Scenario.h_undecodable Scenario.w0
  = ({| stdout := stdout Scenario.w0
                  ++ (if image_found Scenario.h_undecodable then []
                      else [image_diagnostic Scenario.h_undecodable]);
        stderr := stderr Scenario.w0;
        FLASH_EXTRA_IMAGES := FLASH_EXTRA_IMAGES Scenario.w0 |},
     Raised "UnicodeDecodeError").
Proof.
  apply (unreadable_table_raises Scenario.h_undecodable Scenario.w0
           "UnicodeDecodeError").
  - simpl. tauto.
  - reflexivity.
Defined.

Example flags_table :
  get_partition_table Scenario.h_flags Scenario.w0
  = (Scenario.w0,
     Returned
       [ {| name := "ota"; type := "app"; subtype := "ota_0";
            offset := "0x10000"; size := "1M"; flags := "encrypted" |};
         {| name := "nvs"; type := "data"; subtype := "nvs";
            offset := "0x9000"; size := "0x5000"; flags := "" |} ]).
Proof. vm_compute. reflexivity. Qed.
